(** * BookStore-API: the five book handlers of [src/handlers.ts]

    A shallow embedding of the Lambda handlers [createBook], [getBook],
    [updateBook], [deleteBook] and [listBook], of the helpers
    [fetchBookById] and [handleError] they share, and of the table they
    read and write, followed by the properties the specification states
    about them.

    The handlers are [async] functions that throw and catch; they are
    written here in a small state-and-exception monad, [Promise], over a
    [world] that holds the table, the answers the storage service is going
    to give, and the source of random identifiers. *)

From Stdlib Require Import SpecFloat.
From stdpp Require Import gmap strings list fin_maps pretty.

Open Scope Z_scope.

(** ** JSON documents

    What [JSON.parse] produces and [JSON.stringify] consumes.  A number is
    an IEEE 754 double; an object is a finite map from property names to
    documents. *)

#[warnings="-register-all"]
Inductive json : Type :=
| JNull
| JBool (b : bool)
| JNum (x : spec_float)
| JStr (s : string)
| JArr (elems : list json)
| JObj (props : gmap string json).

(** The own enumerable properties of a value, as the object spread
    [{...v}] copies them: the properties of an object, the elements of an
    array and the characters of a string under their indices (a character
    being a byte of the string here), and nothing for [null], booleans and
    numbers. *)
Definition own_props (v : json) : gmap string json :=
  match v with
  | JObj o => o
  | JArr l => list_to_map (imap (λ i x, (pretty i, x)) l)
  | JStr s =>
      list_to_map
        (imap (λ i c, (pretty i, JStr (String c EmptyString)))
              (String.list_ascii_of_string s))
  | JNull | JBool _ | JNum _ => ∅
  end.

(** The property [f] of [v], [None] standing for [undefined]. *)
Definition prop (f : string) (v : json) : option json :=
  match v with
  | JObj o => o !! f
  | _ => None
  end.

(** The double quote character, as a string. *)
Definition dquote : string := String (Ascii.ascii_of_nat 34) EmptyString.

(** ** What can be thrown

    [ValidationError] is yup's, [SyntaxError] is the parser's, [HttpError]
    is the class of line 49 (its [message] is the serialised body, as its
    constructor passes [JSON.stringify(body)] to [Error]).  [OtherError]
    stands for every other throwable, a storage or infrastructure failure
    in particular. *)
Inductive exn : Type :=
| ValidationError (errors : list string)
| SyntaxError (message : string)
| HttpError (statusCode : Z) (message : string)
| OtherError (name : string).

(** The three classes [handleError] tests with [instanceof]. *)
Definition classified (e : exn) : bool :=
  match e with
  | ValidationError _ | SyntaxError _ | HttpError _ _ => true
  | OtherError _ => false
  end.

(** ** Requests and responses *)

(** The two parts of the event the handlers read, [event.body as string]
    and [event.pathParameters?.id as string]. *)
Record APIGatewayProxyEvent : Type := Event {
  body : string;
  id : string;
}.

(** [headers] is absent from the response of a successful delete. *)
Record APIGatewayProxyResult : Type := Result {
  res_statusCode : Z;
  res_headers : option (list (string * string));
  res_body : string;
}.

Definition headers : list (string * string) :=
  [("content-type", "application/json")].

(** ** The world and the [Promise] monad *)

(** [table] is BooksTable, keyed on the ISBN.  [service] lists what the
    storage service answers to the coming calls, in order: [None] when it
    serves the call, [Some name] when it fails it with an error of that
    name; past the end of the list every call is served.  [rng] and
    [drawn] are the source of random identifiers: the [n]-th call of
    [v4()] returns [rng n]. *)
Record world : Type := World {
  table : gmap string (gmap string json);
  service : list (option string);
  rng : nat → string;
  drawn : nat;
}.

Inductive outcome (A : Type) : Type :=
| Fulfilled (a : A)
| Thrown (e : exn).
Arguments Fulfilled {A} a.
Arguments Thrown {A} e.

Definition Promise (A : Type) : Type := world → outcome A * world.

#[global] Instance Promise_ret : MRet Promise :=
  λ A a w, (Fulfilled a, w).

#[global] Instance Promise_bind : MBind Promise :=
  λ A B k m w,
    match m w with
    | (Fulfilled a, w') => k a w'
    | (Thrown e, w') => (Thrown e, w')
    end.

(** A synchronous computation that returns or throws, run in the monad. *)
Definition settle {A} (o : outcome A) : Promise A := λ w, (o, w).

#[global] Instance Promise_throw : MThrow exn Promise :=
  λ A e, settle (Thrown e).

(** [try { m } catch (e) { return h(e); }] *)
Definition try_catch {A} (m : Promise A) (h : exn → Promise A) : Promise A :=
  λ w,
    match m w with
    | (Fulfilled a, w') => (Fulfilled a, w')
    | (Thrown e, w') => h e w'
    end.

(** ** The storage collaborator, [docClient]

    The one table the client is used on, [tableName = "BooksTable"]: a
    key-value table keyed by ISBN with single-item get, put (full
    overwrite), delete, and scan.  Every call first takes the next answer
    of the service; a failed call leaves the table as it was. *)
Definition call {A} (op : gmap string (gmap string json) → A * gmap string (gmap string json))
    : Promise A :=
  λ w,
    match service w with
    | Some name :: rest =>
        (Thrown (OtherError name), World (table w) rest (rng w) (drawn w))
    | None :: rest =>
        let '(a, t) := op (table w) in
        (Fulfilled a, World t rest (rng w) (drawn w))
    | [] =>
        let '(a, t) := op (table w) in
        (Fulfilled a, World t [] (rng w) (drawn w))
    end.

(** [docClient.get({TableName, Key: {ISBN: key}}).promise()]; the result is
    [output.Item]. *)
Definition docClient_get (key : string) : Promise (option (gmap string json)) :=
  call (λ t, (t !! key, t)).

(** [docClient.put({TableName, Item}).promise()]: the item replaces whatever
    the table holds under the item's own ISBN.  An item without a string
    ISBN is refused by the service. *)
Definition docClient_put (Item : gmap string json) : Promise unit :=
  match Item !! "ISBN" with
  | Some (JStr key) => call (λ t, (tt, <[key := Item]> t))
  | _ => mthrow (OtherError "ValidationException")
  end.

(** [docClient.delete({TableName, Key: {ISBN: key}}).promise()] *)
Definition docClient_delete (key : string) : Promise unit :=
  call (λ t, (tt, delete key t)).

(** [docClient.scan({TableName}).promise()]; the result is [output.Items],
    in no particular order. *)
Definition docClient_scan : Promise (list (gmap string json)) :=
  call (λ t, ((map_to_list t).*2, t)).

(** [v4()] of the uuid package: the next random identifier. *)
Definition v4 : Promise string :=
  λ w, (Fulfilled (rng w (drawn w)),
        World (table w) (service w) (rng w) (S (drawn w))).


(** ** The runtime

    The builtins and the library parts the handlers use and the repository
    does not contain.  [JSON_parse] returns the document, or the message
    of the [SyntaxError] it throws.  [is_date] says which values
    [yup.date()] takes for a date, and [message] is the text yup reports
    for a field (its name, the rule it breaks and its value). *)
Inductive rule : Type :=
| string_required
| date_required
| bool_required.

Class Runtime : Type := {
  JSON_parse : string → string + json;
  JSON_stringify : json → string;
  is_date : json → bool;
  message : string → rule → option json → string;
}.

Section Handlers.
Context `{RT : Runtime}.

(** [JSON.parse(text)] *)
Definition parse (text : string) : Promise json :=
  match JSON_parse text with
  | inr v => mret v
  | inl msg => mthrow (SyntaxError msg)
  end.

(** ** Validation *)

(** The schema of lines 12-19: five fields, each [required()]. *)
Definition schema : list (string * rule) :=
  [ ("author", string_required);
    ("title", string_required);
    ("description", string_required);
    ("publication_date", date_required);
    ("available", bool_required) ].

(** Modelled from the spec: what a rule of the schema accepts (section 4.1:
    a non-empty string for author, title and description, a parseable date
    for publication_date, a boolean for available; a field that is not
    there breaks its rule).  yup itself is not part of the repository. *)
Definition conforms (r : rule) (v : option json) : bool :=
  match r, v with
  | string_required, Some (JStr s) => bool_decide (s ≠ EmptyString)
  | date_required, Some v => is_date v
  | bool_required, Some (JBool _) => true
  | _, _ => false
  end.

(** The fields of the schema that [value] violates, in schema order. *)
Definition violated (value : json) : list (string * rule) :=
  filter (λ fr, conforms fr.2 (prop fr.1 value) = false) schema.

(** Modelled from the spec: [schema.validate(value, { abortEarly })] of yup,
    which is not part of the repository (section 4.1: on success the
    payload is returned; on failure a [ValidationError] carries one message
    per violated field).  With [abortEarly] the validation stops at the
    first violation, without it every violation is collected. *)
Definition schema_validate (value : json) (abortEarly : bool) : Promise json :=
  let errors :=
    (λ fr, message fr.1 fr.2 (prop fr.1 value)) <$> violated value in
  match errors with
  | [] => mret value
  | first :: others =>
      mthrow (ValidationError (if abortEarly then [first] else errors))
  end.

(** ** The helpers *)

(** [new HttpError(statusCode, body)] *)
Definition new_HttpError (statusCode : Z) (body : gmap string json) : exn :=
  HttpError statusCode (JSON_stringify (JObj body)).

Definition fetchBookById (id : string) : Promise (gmap string json) :=
  Item ← docClient_get id;
  match Item with
  | None => mthrow (new_HttpError 404 {[ "error" := JStr "not found" ]})
  | Some Item => mret Item
  end.

(** [handleError] returns a response for the three classes it knows and
    throws everything else again. *)
Definition handleError (e : exn) : outcome APIGatewayProxyResult :=
  match e with
  | ValidationError errors =>
      Fulfilled
        (Result 400 (Some headers)
           (JSON_stringify (JObj {[ "errors" := JArr (JStr <$> errors) ]})))
  | SyntaxError message =>
      Fulfilled
        (Result 400 (Some headers)
           (JSON_stringify
              (JObj {[ "error" :=
                 JStr ("invalid request body format : " +:+ dquote
                       +:+ message +:+ dquote) ]})))
  | HttpError statusCode message =>
      Fulfilled (Result statusCode (Some headers) message)
  | OtherError _ => Thrown e
  end.

(** ** The handlers

    Each of the first four is a [try] block, named [_try] here, whose
    [catch] returns [handleError(e)]. *)

(** [{ ...reqBody, ISBN }]: the properties of the body, and the ISBN in
    place of the one the body may have. *)
Definition with_ISBN (reqBody : json) (ISBN : string) : gmap string json :=
  <[ "ISBN" := JStr ISBN ]> (own_props reqBody).

Definition createBook_try (event : APIGatewayProxyEvent)
    : Promise APIGatewayProxyResult :=
  reqBody ← parse (body event);
  schema_validate reqBody false;;
  ISBN ← v4;
  let book := with_ISBN reqBody ISBN in
  docClient_put book;;
  mret (Result 201 (Some headers) (JSON_stringify (JObj book))).

Definition createBook (event : APIGatewayProxyEvent)
    : Promise APIGatewayProxyResult :=
  try_catch (createBook_try event) (λ e, settle (handleError e)).

Definition getBook_try (event : APIGatewayProxyEvent)
    : Promise APIGatewayProxyResult :=
  book ← fetchBookById (id event);
  mret (Result 200 (Some headers) (JSON_stringify (JObj book))).

Definition getBook (event : APIGatewayProxyEvent)
    : Promise APIGatewayProxyResult :=
  try_catch (getBook_try event) (λ e, settle (handleError e)).

Definition updateBook_try (event : APIGatewayProxyEvent)
    : Promise APIGatewayProxyResult :=
  let id := id event in
  fetchBookById id;;
  reqBody ← parse (body event);
  schema_validate reqBody false;;
  let book := with_ISBN reqBody id in
  docClient_put book;;
  mret (Result 200 (Some headers) (JSON_stringify (JObj book))).

Definition updateBook (event : APIGatewayProxyEvent)
    : Promise APIGatewayProxyResult :=
  try_catch (updateBook_try event) (λ e, settle (handleError e)).

Definition deleteBook_try (event : APIGatewayProxyEvent)
    : Promise APIGatewayProxyResult :=
  let id := id event in
  fetchBookById id;;
  docClient_delete id;;
  mret (Result 204 None "Record deleted successfully ").

Definition deleteBook (event : APIGatewayProxyEvent)
    : Promise APIGatewayProxyResult :=
  try_catch (deleteBook_try event) (λ e, settle (handleError e)).

(** [listBook] has no [try]. *)
Definition listBook (event : APIGatewayProxyEvent)
    : Promise APIGatewayProxyResult :=
  Items ← docClient_scan;
  mret (Result 200 (Some headers) (JSON_stringify (JArr (JObj <$> Items)))).

(** ** The three error responses of section 6 of the specification *)

(** 404: an object whose [error] is [not found]. *)
Definition not_found : APIGatewayProxyResult :=
  Result 404 (Some headers)
    (JSON_stringify (JObj {[ "error" := JStr "not found" ]})).

(** 400: an object whose [errors] is the array of the messages. *)
Definition invalid (errors : list string) : APIGatewayProxyResult :=
  Result 400 (Some headers)
    (JSON_stringify (JObj {[ "errors" := JArr (JStr <$> errors) ]})).

(** 400: an object whose [error] is the text [invalid request body format : ]
    followed by the parser's message between double quotes. *)
Definition malformed (parser_message : string) : APIGatewayProxyResult :=
  Result 400 (Some headers)
    (JSON_stringify
       (JObj {[ "error" :=
          JStr ("invalid request body format : " +:+ dquote
                +:+ parser_message +:+ dquote) ]})).

(** The messages of the fields [value] violates, one for each. *)
Definition messages (value : json) : list string :=
  (λ fr, message fr.1 fr.2 (prop fr.1 value)) <$> violated value.

End Handlers.

(** ** A sample runtime

    One instance of [Runtime], to run the handlers on concrete requests:
    a serialiser for every document, a parser that knows the documents of
    [documents] by their serialised text, dates of the form YYYY-MM-DD,
    and yup's default messages. *)
Module Sample.

Definition backslash : Ascii.ascii := Ascii.ascii_of_nat 92.

Definition escape (s : string) : string :=
  String.concat EmptyString
    ((λ c, if decide (c = Ascii.ascii_of_nat 34 ∨ c = backslash)
           then String backslash (String c EmptyString)
           else String c EmptyString)
     <$> String.list_ascii_of_string s).

Definition quoted (s : string) : string := dquote +:+ escape s +:+ dquote.

(** A finite double is [m * 2 ^ e]; its decimal expansion is exact. *)
Definition show_number (x : spec_float) : string :=
  match x with
  | S754_zero _ => "0"
  | S754_infinity _ | S754_nan => "null"
  | S754_finite s m e =>
      let sign := if s then "-" else EmptyString in
      if decide (0 ≤ e) then sign +:+ pretty (Z.pos m * 2 ^ e)
      else
        let k := Z.to_nat (- e) in
        let digits :=
          String.list_ascii_of_string (pretty (Z.pos m * 5 ^ (- e))) in
        let digits :=
          replicate (S k - length digits)%nat (Ascii.ascii_of_nat 48)
          ++ digits in
        let n := (length digits - k)%nat in
        sign +:+ String.string_of_list_ascii (take n digits) +:+ "."
             +:+ String.string_of_list_ascii (drop n digits)
  end.

Fixpoint stringify (v : json) : string :=
  match v with
  | JNull => "null"
  | JBool true => "true"
  | JBool false => "false"
  | JNum x => show_number x
  | JStr s => quoted s
  | JArr l => "[" +:+ String.concat "," (stringify <$> l) +:+ "]"
  | JObj o =>
      "{" +:+ String.concat ","
                (map_fold
                   (λ k v acc, acc ++ [quoted k +:+ ":" +:+ stringify v])
                   [] o)
          +:+ "}"
  end.

(** The payload of the example scenario of the specification. *)
Definition payload : gmap string json :=
  {[ "author" := JStr "A";
     "title" := JStr "T";
     "description" := JStr "D";
     "publication_date" := JStr "2020-01-01";
     "available" := JBool true ]}.

(** The same with an ISBN of the client's own and one more field. *)
Definition payload_with_ISBN : gmap string json :=
  <[ "ISBN" := JStr "client-chosen" ]> (<[ "pages" := JStr "96" ]> payload).

(** No title, an empty description, and a number where a boolean goes. *)
Definition payload_incomplete : gmap string json :=
  {[ "author" := JStr "A";
     "description" := JStr EmptyString;
     "publication_date" := JStr "2020-01-01";
     "available" := JNum (S754_finite false 1 0) ]}.

Definition documents : list json :=
  [ JObj payload; JObj payload_with_ISBN; JObj payload_incomplete;
    JObj ∅; JNull ].

Definition parse_known (text : string) : string + json :=
  match find (λ d, bool_decide (stringify d = text)) documents with
  | Some d => inr d
  | None => inl "Unexpected end of JSON input"
  end.

Definition digit (c : Ascii.ascii) : bool :=
  bool_decide (48 ≤ Ascii.nat_of_ascii c ≤ 57)%nat.

Definition dash (c : Ascii.ascii) : bool :=
  bool_decide (Ascii.nat_of_ascii c = 45%nat).

Definition iso_date (v : json) : bool :=
  match v with
  | JStr s =>
      match String.list_ascii_of_string s with
      | [y1; y2; y3; y4; s1; m1; m2; s2; d1; d2] =>
          forallb digit [y1; y2; y3; y4; m1; m2; d1; d2] && dash s1 && dash s2
      | _ => false
      end
  | _ => false
  end.

Definition default_message (field : string) (r : rule) (v : option json)
    : string :=
  match v with
  | None | Some (JStr EmptyString) => field +:+ " is a required field"
  | Some _ =>
      field +:+ " must be a `"
            +:+ match r with
                | string_required => "string"
                | date_required => "date"
                | bool_required => "boolean"
                end
            +:+ "` type"
  end.

Definition runtime : Runtime :=
  {| JSON_parse := parse_known;
     JSON_stringify := stringify;
     is_date := iso_date;
     message := default_message |}.

Definition uuids (n : nat) : string := "uuid-" +:+ pretty n.

(** An empty table, and a table with one book under ["uuid-0"]. *)
Definition empty_world : world := World ∅ [] uuids 0.

Definition stored : gmap string json :=
  <[ "ISBN" := JStr "uuid-0" ]> (<[ "pages" := JStr "320" ]> payload).

Definition one_book : world := World {[ "uuid-0" := stored ]} [] uuids 1.

(** The generator about to repeat itself. *)
Definition colliding : world := World {[ "uuid-0" := stored ]} [] uuids 0.

(** The storage service about to fail the next call. *)
Definition failing : world :=
  World {[ "uuid-0" := stored ]} [Some "ServiceUnavailable"] uuids 1.

(** Requests: a create, an update of the book stored, a payload that is
    not valid sent to the book stored and to an identifier that is not in
    use, a body cut short, and a request with no body for [id]. *)
Definition create_request : APIGatewayProxyEvent :=
  Event (stringify (JObj payload)) EmptyString.

Definition update_request : APIGatewayProxyEvent :=
  Event (stringify (JObj payload_with_ISBN)) "uuid-0".

Definition incomplete_request : APIGatewayProxyEvent :=
  Event (stringify (JObj payload_incomplete)) "uuid-0".

Definition incomplete_unknown : APIGatewayProxyEvent :=
  Event (stringify (JObj payload_incomplete)) "uuid-9".

Definition truncated_request : APIGatewayProxyEvent :=
  Event "{" "uuid-0".

Definition request_for (id : string) : APIGatewayProxyEvent :=
  Event EmptyString id.

(** The storage service about to serve one call and fail the next. *)
Definition failing_second : world :=
  World {[ "uuid-0" := stored ]} [None; Some "ServiceUnavailable"] uuids 1.

End Sample.


(** ** Proof steps *)

(** Unfold the operations of the monad. *)
Ltac promise :=
  unfold mbind, Promise_bind, mret, Promise_ret, mthrow, Promise_throw,
    try_catch, settle in *.

(** * Properties *)

Section Properties.
Context `{RT : Runtime}.

Implicit Types (event : APIGatewayProxyEvent) (w : world) (value : json).

(** *** The storage service *)

Lemma world_eta w : service w = [] → World (table w) [] (rng w) (drawn w) = w.
Proof. destruct w; simpl; congruence. Qed.

Lemma call_served {A} (op : gmap string (gmap string json) → A * _) w :
  service w = [] →
  call op w = (Fulfilled (op (table w)).1,
               World (op (table w)).2 [] (rng w) (drawn w)).
Proof. unfold call. intros ->. by destruct (op (table w)). Qed.

Lemma call_failed {A} (op : gmap string (gmap string json) → A * _) w name rest :
  service w = Some name :: rest →
  call op w = (Thrown (OtherError name), World (table w) rest (rng w) (drawn w)).
Proof. unfold call. by intros ->. Qed.

(** A call either fails, and the table is as it was, or is served. *)
Lemma call_outcome {A} (op : gmap string (gmap string json) → A * _) w o w' :
  call op w = (o, w') →
  (∃ name, o = Thrown (OtherError name) ∧ table w' = table w)
  ∨ (o = Fulfilled (op (table w)).1 ∧ table w' = (op (table w)).2).
Proof.
  unfold call. destruct (service w) as [|[name|] rest] eqn:Hs.
  - destruct (op (table w)). intros [= <- <-]. by right.
  - intros [= <- <-]. left. by exists name.
  - destruct (op (table w)). intros [= <- <-]. by right.
Qed.

Lemma fetch_found id w book :
  service w = [] → table w !! id = Some book →
  fetchBookById id w = (Fulfilled book, w).
Proof.
  intros Hs Ht. unfold fetchBookById, docClient_get. promise.
  rewrite call_served by done. simpl. rewrite Ht, world_eta; done.
Qed.

Lemma fetch_missing id w :
  service w = [] → table w !! id = None →
  fetchBookById id w
  = (Thrown (HttpError 404
               (JSON_stringify (JObj {[ "error" := JStr "not found" ]}))), w).
Proof.
  intros Hs Ht. unfold fetchBookById, docClient_get. promise.
  rewrite call_served by done. simpl. rewrite Ht, world_eta; done.
Qed.

(** Whatever the service does, [fetchBookById] leaves the table alone, and
    what it throws is the 404 or the failure of the service. *)
Lemma fetch_outcome id w o w' :
  fetchBookById id w = (o, w') →
  table w' = table w
  ∧ ((∃ book, o = Fulfilled book ∧ table w !! id = Some book)
     ∨ (o = Thrown (HttpError 404
               (JSON_stringify (JObj {[ "error" := JStr "not found" ]})))
        ∧ table w !! id = None)
     ∨ ∃ name, o = Thrown (OtherError name)).
Proof.
  unfold fetchBookById, docClient_get. promise.
  destruct (call _ w) as [o1 w1] eqn:Hc.
  apply call_outcome in Hc as [(name & -> & Ht)|[-> Ht]]; simpl in *.
  - intros [= <- <-]. eauto.
  - destruct (table w !! id) eqn:Hid; intros [= <- <-]; eauto.
Qed.

Lemma with_ISBN_ISBN value key : with_ISBN value key !! "ISBN" = Some (JStr key).
Proof. apply lookup_insert_eq. Qed.

Lemma put_served value key w :
  service w = [] →
  docClient_put (with_ISBN value key) w
  = (Fulfilled tt,
     World (<[key := with_ISBN value key]> (table w)) [] (rng w) (drawn w)).
Proof.
  intros Hs. unfold docClient_put. rewrite with_ISBN_ISBN.
  by rewrite call_served.
Qed.

Lemma put_outcome value key w o w' :
  docClient_put (with_ISBN value key) w = (o, w') →
  (∃ name, o = Thrown (OtherError name) ∧ table w' = table w)
  ∨ (o = Fulfilled tt ∧ table w' = <[key := with_ISBN value key]> (table w)).
Proof.
  unfold docClient_put. rewrite with_ISBN_ISBN. apply call_outcome.
Qed.

(** *** Validation *)

Lemma validate_accepts value abortEarly w :
  violated value = [] → schema_validate value abortEarly w = (Fulfilled value, w).
Proof. unfold schema_validate. by intros ->. Qed.

Lemma validate_rejects value w :
  violated value ≠ [] →
  schema_validate value false w = (Thrown (ValidationError (messages value)), w).
Proof. unfold schema_validate, messages. by destruct (violated value). Qed.

Lemma validate_outcome value abortEarly w o w' :
  schema_validate value abortEarly w = (o, w') →
  w' = w ∧ (o = Fulfilled value ∨ ∃ errors, o = Thrown (ValidationError errors)).
Proof.
  unfold schema_validate. destruct (violated value); promise;
    intros [= <- <-]; eauto.
Qed.

(** With [abortEarly] there is never more than one message. *)
Lemma validate_abortEarly value w errors w' :
  schema_validate value true w = (Thrown (ValidationError errors), w') →
  length errors = 1%nat.
Proof.
  unfold schema_validate. destruct (_ <$> violated value); promise;
    by intros [= <- <-].
Qed.

(** A value that violates nothing is an object: anything else has no
    author. *)
Lemma valid_object value : violated value = [] → ∃ o, value = JObj o.
Proof.
  destruct value; eauto; unfold violated, schema;
    rewrite filter_cons_True by done; discriminate.
Qed.

Lemma valid_props value f : violated value = [] → own_props value !! f = prop f value.
Proof. by intros [o ->]%valid_object. Qed.

(** The fields of a book other than its ISBN are those of the payload. *)
Lemma with_ISBN_field value key f :
  violated value = [] → f ≠ "ISBN" → with_ISBN value key !! f = prop f value.
Proof.
  intros Hv Hf. unfold with_ISBN. by rewrite lookup_insert_ne, valid_props.
Qed.

(** *** Update *)

(** C1. On an identifier that exists and a body that parses and is valid,
    update answers 200 with the new record as JSON and stores it under the
    identifier of the path: the stored record has that identifier for ISBN
    whatever the body said, and every other field is the one of the
    payload, so nothing of the record stored before remains. *)
Theorem updateBook_replaces_record event w old value :
  service w = [] →
  table w !! id event = Some old →
  JSON_parse (body event) = inr value →
  violated value = [] →
  updateBook event w
  = (Fulfilled (Result 200 (Some headers)
                  (JSON_stringify (JObj (with_ISBN value (id event))))),
     World (<[ id event := with_ISBN value (id event) ]> (table w))
           [] (rng w) (drawn w))
  ∧ <[ id event := with_ISBN value (id event) ]> (table w) !! id event
    = Some (with_ISBN value (id event))
  ∧ with_ISBN value (id event) !! "ISBN" = Some (JStr (id event))
  ∧ ∀ f, f ≠ "ISBN" → with_ISBN value (id event) !! f = prop f value.
Proof.
  intros Hs Hold Hparse Hvalid. repeat split.
  - unfold updateBook, updateBook_try, parse. promise.
    rewrite (fetch_found _ _ old), Hparse, validate_accepts by done.
    by rewrite put_served.
  - apply lookup_insert_eq.
  - apply with_ISBN_ISBN.
  - intros f Hf. by apply with_ISBN_field.
Qed.

(** C3. On an identifier the table does not have, update answers 404
    whatever the body is: nothing is assumed of the body, which is neither
    parsed nor validated, and the world is left as it was. *)
Theorem updateBook_unknown_identifier event w :
  service w = [] →
  table w !! id event = None →
  updateBook event w = (Fulfilled not_found, w).
Proof.
  intros Hs Hid. unfold updateBook, updateBook_try. promise.
  by rewrite fetch_missing.
Qed.

(** *** Create *)

(** C2, amended. On a body that parses and is valid, create answers 201
    with a JSON record that has the fields of the payload and, for ISBN,
    the identifier the generator gives, and stores that record under it.
    The handler does not compare the identifier with those in use: when
    the generator gives one the table does not have, the identifier is
    none of the table's and every record of the table stays. *)
Theorem createBook_stores_record event w value :
  service w = [] →
  JSON_parse (body event) = inr value →
  violated value = [] →
  createBook event w
  = (Fulfilled (Result 201 (Some headers)
                  (JSON_stringify (JObj (with_ISBN value (rng w (drawn w)))))),
     World (<[ rng w (drawn w) := with_ISBN value (rng w (drawn w)) ]> (table w))
           [] (rng w) (S (drawn w)))
  ∧ with_ISBN value (rng w (drawn w)) !! "ISBN" = Some (JStr (rng w (drawn w)))
  ∧ (∀ f, f ≠ "ISBN" → with_ISBN value (rng w (drawn w)) !! f = prop f value)
  ∧ (table w !! rng w (drawn w) = None →
     ∀ key, is_Some (table w !! key) →
       key ≠ rng w (drawn w)
       ∧ <[ rng w (drawn w) := with_ISBN value (rng w (drawn w)) ]> (table w) !! key
         = table w !! key).
Proof.
  intros Hs Hparse Hvalid. split; [|split; [|split]].
  - unfold createBook, createBook_try, parse, v4. promise.
    rewrite Hparse, validate_accepts by done.
    by rewrite put_served.
  - apply with_ISBN_ISBN.
  - intros f Hf. by apply with_ISBN_field.
  - intros Hfresh key [v Hv].
    assert (key ≠ rng w (drawn w)) as Hne by congruence.
    split; [done|]. by rewrite lookup_insert_ne.
Qed.

(** C7. Create looks for no record under the identifier it is about to
    use: when the generator gives the identifier of a record of the table,
    create answers 201 all the same and the new record has taken the place
    of the old one. *)
Theorem createBook_overwrites_on_collision event w old value :
  service w = [] →
  JSON_parse (body event) = inr value →
  violated value = [] →
  table w !! rng w (drawn w) = Some old →
  ∃ w',
    createBook event w
    = (Fulfilled (Result 201 (Some headers)
                    (JSON_stringify (JObj (with_ISBN value (rng w (drawn w)))))),
       w')
    ∧ table w' !! rng w (drawn w) = Some (with_ISBN value (rng w (drawn w)))
    ∧ ∀ key, key ≠ rng w (drawn w) → table w' !! key = table w !! key.
Proof.
  intros Hs Hparse Hvalid Hold. eexists. split; [|split].
  - unfold createBook, createBook_try, parse, v4. promise.
    rewrite Hparse, validate_accepts by done.
    by rewrite put_served.
  - apply lookup_insert_eq.
  - intros key Hkey. simpl. by rewrite lookup_insert_ne.
Qed.

(** *** Every way a handler can end *)

Lemma createBook_outcome event w o w' :
  createBook event w = (o, w') →
  (∃ msg, JSON_parse (body event) = inl msg
          ∧ o = Fulfilled (malformed msg) ∧ w' = w)
  ∨ (∃ errors, o = Fulfilled (invalid errors) ∧ w' = w)
  ∨ (∃ name, o = Thrown (OtherError name) ∧ table w' = table w)
  ∨ (∃ value,
       o = Fulfilled (Result 201 (Some headers)
             (JSON_stringify (JObj (with_ISBN value (rng w (drawn w))))))
       ∧ table w'
         = <[ rng w (drawn w) := with_ISBN value (rng w (drawn w)) ]> (table w)).
Proof.
  unfold createBook, createBook_try, parse, v4. promise.
  destruct (JSON_parse (body event)) as [msg|value] eqn:Hparse.
  { intros [= <- <-]. left. by exists msg. }
  destruct (schema_validate value false w) as [o1 w1] eqn:Hv.
  apply validate_outcome in Hv as [-> [->|[errors ->]]]; simpl.
  2: { intros [= <- <-]. right; left. by exists errors. }
  destruct (docClient_put _ _) as [o2 w2] eqn:Hput.
  apply put_outcome in Hput as [(name & -> & Ht)|[-> Ht]]; simpl in *;
    intros [= <- <-]; right; right; [left|right]; eauto.
Qed.

Lemma getBook_outcome event w o w' :
  getBook event w = (o, w') →
  table w' = table w
  ∧ ((∃ book, table w !! id event = Some book
        ∧ o = Fulfilled (Result 200 (Some headers) (JSON_stringify (JObj book))))
     ∨ (table w !! id event = None ∧ o = Fulfilled not_found)
     ∨ ∃ name, o = Thrown (OtherError name)).
Proof.
  unfold getBook, getBook_try. promise.
  destruct (fetchBookById _ w) as [o1 w1] eqn:Hf.
  apply fetch_outcome in Hf as [Ht [(book & -> & Hid)|[[-> Hid]|[name ->]]]];
    simpl; intros [= <- <-]; split; eauto.
Qed.

Lemma updateBook_outcome event w o w' :
  updateBook event w = (o, w') →
  (table w !! id event = None ∧ o = Fulfilled not_found ∧ table w' = table w)
  ∨ (∃ msg, JSON_parse (body event) = inl msg
            ∧ o = Fulfilled (malformed msg) ∧ table w' = table w)
  ∨ (∃ errors, o = Fulfilled (invalid errors) ∧ table w' = table w)
  ∨ (∃ name, o = Thrown (OtherError name) ∧ table w' = table w)
  ∨ (∃ value,
       o = Fulfilled (Result 200 (Some headers)
             (JSON_stringify (JObj (with_ISBN value (id event)))))
       ∧ table w' = <[ id event := with_ISBN value (id event) ]> (table w)).
Proof.
  unfold updateBook, updateBook_try, parse. promise.
  destruct (fetchBookById _ w) as [o1 w1] eqn:Hf.
  apply fetch_outcome in Hf as [Ht [(book & -> & Hid)|[[-> Hid]|[name ->]]]];
    simpl.
  2: { intros [= <- <-]. by left. }
  2: { intros [= <- <-]. do 3 right; left. eauto. }
  destruct (JSON_parse (body event)) as [msg|value] eqn:Hparse.
  { intros [= <- <-]. right; left. by exists msg. }
  destruct (schema_validate value false w1) as [o2 w2] eqn:Hv.
  apply validate_outcome in Hv as [-> [->|[errors ->]]]; simpl.
  2: { intros [= <- <-]. do 2 right; left. by exists errors. }
  destruct (docClient_put _ _) as [o3 w3] eqn:Hput.
  apply put_outcome in Hput as [(name & -> & Hp)|[-> Hp]]; simpl in *;
    intros [= <- <-]; do 3 right; [left|right]; rewrite <- Ht; eauto.
Qed.

Lemma deleteBook_outcome event w o w' :
  deleteBook event w = (o, w') →
  (table w !! id event = None ∧ o = Fulfilled not_found ∧ table w' = table w)
  ∨ (∃ name, o = Thrown (OtherError name) ∧ table w' = table w)
  ∨ (is_Some (table w !! id event)
     ∧ o = Fulfilled (Result 204 None "Record deleted successfully ")
     ∧ table w' = delete (id event) (table w)).
Proof.
  unfold deleteBook, deleteBook_try, docClient_delete. promise.
  destruct (fetchBookById _ w) as [o1 w1] eqn:Hf.
  apply fetch_outcome in Hf as [Ht [(book & -> & Hid)|[[-> Hid]|[name ->]]]];
    simpl.
  2: { intros [= <- <-]. by left. }
  2: { intros [= <- <-]. right; left. eauto. }
  destruct (call _ w1) as [o2 w2] eqn:Hc.
  apply call_outcome in Hc as [(name & -> & Hd)|[-> Hd]]; simpl in *;
    intros [= <- <-]; right; [left|right].
  - exists name. split; [done|congruence].
  - rewrite Hid, Hd, Ht. eauto.
Qed.

Lemma listBook_outcome event w o w' :
  listBook event w = (o, w') →
  table w' = table w
  ∧ ((∃ name, o = Thrown (OtherError name))
     ∨ o = Fulfilled (Result 200 (Some headers)
             (JSON_stringify (JArr (JObj <$> (map_to_list (table w)).*2))))).
Proof.
  unfold listBook, docClient_scan. promise.
  destruct (call _ w) as [o1 w1] eqn:Hc.
  apply call_outcome in Hc as [(name & -> & Hd)|[-> Hd]]; simpl in *;
    intros [= <- <-]; split; eauto.
Qed.

(** *** Bodies that are refused *)

(** C4, amended. On a body that parses to a payload violating the schema,
    create, and update on an identifier that exists, answer 400 with the
    JSON object whose [errors] lists the messages of the violated fields:
    one message for each violated field, in the order of the schema, for
    all the fields of the schema the payload violates and no other; the
    world is left as it was. *)
Theorem invalid_payload_lists_every_violation event w value :
  JSON_parse (body event) = inr value →
  violated value ≠ [] →
  createBook event w = (Fulfilled (invalid (messages value)), w)
  ∧ (service w = [] → is_Some (table w !! id event) →
     updateBook event w = (Fulfilled (invalid (messages value)), w))
  ∧ length (messages value) = length (violated value)
  ∧ (∀ i field r, violated value !! i = Some (field, r) →
       messages value !! i = Some (message field r (prop field value)))
  ∧ (∀ field r, (field, r) ∈ violated value
       ↔ (field, r) ∈ schema ∧ conforms r (prop field value) = false).
Proof.
  intros Hparse Hviolated. split; [|split; [|split; [|split]]].
  - unfold createBook, createBook_try, parse. promise.
    by rewrite Hparse, validate_rejects.
  - intros Hs [old Hold]. unfold updateBook, updateBook_try, parse. promise.
    by rewrite (fetch_found _ _ old), Hparse, validate_rejects.
  - unfold messages. apply length_fmap.
  - intros i field r Hi. unfold messages. by rewrite list_lookup_fmap, Hi.
  - intros field r. unfold violated. rewrite list_elem_of_filter. simpl. tauto.
Qed.

(** C8. On a body that does not parse, create, and update on an
    identifier that exists, answer 400 with the JSON object whose [error]
    is the text [invalid request body format : ] followed by the parser's
    message between double quotes; the world is left as it was. *)
Theorem malformed_body_is_refused event w msg :
  JSON_parse (body event) = inl msg →
  createBook event w = (Fulfilled (malformed msg), w)
  ∧ (service w = [] → is_Some (table w !! id event) →
     updateBook event w = (Fulfilled (malformed msg), w))
  ∧ res_statusCode (malformed msg) = 400
  ∧ res_body (malformed msg)
    = JSON_stringify
        (JObj {[ "error" :=
           JStr ("invalid request body format : " +:+ dquote +:+ msg
                 +:+ dquote) ]}).
Proof.
  intros Hparse. split; [|split; [|done]].
  - unfold createBook, createBook_try, parse. promise. by rewrite Hparse.
  - intros Hs [old Hold]. unfold updateBook, updateBook_try, parse. promise.
    by rewrite (fetch_found _ _ old), Hparse.
Qed.

(** *** Get and delete *)

(** C5. Get answers 200 with the stored record as JSON when the table has
    a record under the identifier, and 404 with the [not found] object
    when it has none; its answer is a 404 exactly when there is no such
    record.  The world is left as it was. *)
Theorem getBook_found_or_not_found event w :
  service w = [] →
  (∀ book, table w !! id event = Some book →
     getBook event w
     = (Fulfilled (Result 200 (Some headers) (JSON_stringify (JObj book))), w))
  ∧ (table w !! id event = None → getBook event w = (Fulfilled not_found, w))
  ∧ (∃ r, getBook event w = (Fulfilled r, w)
          ∧ (res_statusCode r = 404 ↔ table w !! id event = None)).
Proof.
  intros Hs.
  assert (∀ book, table w !! id event = Some book →
     getBook event w
     = (Fulfilled (Result 200 (Some headers) (JSON_stringify (JObj book))), w))
    as Hfound.
  { intros book Hid. unfold getBook, getBook_try. promise.
    by rewrite (fetch_found _ _ book). }
  assert (table w !! id event = None → getBook event w = (Fulfilled not_found, w))
    as Hmissing.
  { intros Hid. unfold getBook, getBook_try. promise. by rewrite fetch_missing. }
  split; [done|split; [done|]].
  destruct (table w !! id event) as [book|] eqn:Hid.
  - eexists. split; [by apply Hfound|]. simpl. split; [lia|done].
  - eexists. split; [by apply Hmissing|]. done.
Qed.

(** The four handlers that answer in JSON: whatever they answer carries
    the content-type header. *)
Lemma json_handlers_set_headers event w r w' :
  createBook event w = (Fulfilled r, w') ∨ getBook event w = (Fulfilled r, w')
  ∨ updateBook event w = (Fulfilled r, w') ∨ listBook event w = (Fulfilled r, w') →
  res_headers r = Some headers.
Proof.
  intros [Hr|[Hr|[Hr|Hr]]].
  - apply createBook_outcome in Hr
      as [(? & _ & [= ->] & _)|[(? & [= ->] & _)|[(? & [=] & _)|(? & [= ->] & _)]]];
      done.
  - apply getBook_outcome in Hr
      as [_ [(? & _ & [= ->])|[[_ [= ->]]|[? [=]]]]]; done.
  - apply updateBook_outcome in Hr
      as [(_ & [= ->] & _)|[(? & _ & [= ->] & _)|[(? & [= ->] & _)
          |[(? & [=] & _)|(? & [= ->] & _)]]]]; done.
  - apply listBook_outcome in Hr as [_ [[? [=]]|[= ->]]]; done.
Qed.

(** C6. On an identifier that exists, delete removes the record and
    answers 204 with the plain text [Record deleted successfully ] and no
    headers; a get on that identifier then answers 404.  The answers of the
    four other handlers all carry the JSON content-type header. *)
Theorem deleteBook_removes_record event w old :
  service w = [] →
  table w !! id event = Some old →
  deleteBook event w
  = (Fulfilled (Result 204 None "Record deleted successfully "),
     World (delete (id event) (table w)) [] (rng w) (drawn w))
  ∧ getBook event (World (delete (id event) (table w)) [] (rng w) (drawn w))
    = (Fulfilled not_found,
       World (delete (id event) (table w)) [] (rng w) (drawn w))
  ∧ (∀ event0 w0 r w1,
       createBook event0 w0 = (Fulfilled r, w1)
       ∨ getBook event0 w0 = (Fulfilled r, w1)
       ∨ updateBook event0 w0 = (Fulfilled r, w1)
       ∨ listBook event0 w0 = (Fulfilled r, w1) →
       res_headers r = Some headers).
Proof.
  intros Hs Hold. split; [|split].
  - unfold deleteBook, deleteBook_try, docClient_delete. promise.
    rewrite (fetch_found _ _ old) by done. by rewrite call_served.
  - unfold getBook, getBook_try. promise.
    rewrite fetch_missing; [done|done|]. apply lookup_delete_eq.
  - apply json_handlers_set_headers.
Qed.

(** *** Errors *)

(** C9. [handleError] makes a response of each of the three kinds of
    error it knows, validation, parsing and HTTP (the not-found), and
    throws any other again.  In create, get, update and delete,
    what the [try] block throws goes through [handleError], so that these
    four never end with one of the three kinds and end with any failure of
    the storage service as it was thrown.  List has no [catch]: a failure
    of the storage service ends it, and it never answers anything but
    200. *)
Theorem only_three_kinds_are_converted :
  (∀ errors, handleError (ValidationError errors) = Fulfilled (invalid errors))
  ∧ (∀ msg, handleError (SyntaxError msg) = Fulfilled (malformed msg))
  ∧ (∀ status message,
       handleError (HttpError status message)
       = Fulfilled (Result status (Some headers) message))
  ∧ (∀ e, classified e = false → handleError e = Thrown e)
  ∧ (∀ event w e w',
       (createBook_try event w = (Thrown e, w') →
        createBook event w = (handleError e, w'))
       ∧ (getBook_try event w = (Thrown e, w') →
          getBook event w = (handleError e, w'))
       ∧ (updateBook_try event w = (Thrown e, w') →
          updateBook event w = (handleError e, w'))
       ∧ (deleteBook_try event w = (Thrown e, w') →
          deleteBook event w = (handleError e, w')))
  ∧ (∀ event w e w',
       createBook event w = (Thrown e, w') ∨ getBook event w = (Thrown e, w')
       ∨ updateBook event w = (Thrown e, w')
       ∨ deleteBook event w = (Thrown e, w') →
       classified e = false)
  ∧ (∀ event w name rest,
       service w = Some name :: rest →
       getBook event w
       = (Thrown (OtherError name), World (table w) rest (rng w) (drawn w))
       ∧ updateBook event w
         = (Thrown (OtherError name), World (table w) rest (rng w) (drawn w))
       ∧ deleteBook event w
         = (Thrown (OtherError name), World (table w) rest (rng w) (drawn w))
       ∧ listBook event w
         = (Thrown (OtherError name), World (table w) rest (rng w) (drawn w)))
  ∧ (∀ event w value name rest,
       JSON_parse (body event) = inr value →
       violated value = [] →
       service w = Some name :: rest →
       createBook event w
       = (Thrown (OtherError name),
          World (table w) rest (rng w) (S (drawn w))))
  ∧ (∀ event w r w',
       listBook event w = (Fulfilled r, w') → res_statusCode r = 200).
Proof.
  split; [done|split; [done|split; [done|]]].
  split; [|split; [|split; [|split; [|split]]]].
  - by intros [] [=].
  - intros event w e w'.
    unfold createBook, getBook, updateBook, deleteBook, try_catch, settle.
    by repeat split; intros ->.
  - intros event w e w' [He|[He|[He|He]]].
    + apply createBook_outcome in He
        as [(? & _ & [=] & _)|[(? & [=] & _)|[(? & [= ->] & _)|(? & [=] & _)]]].
      done.
    + apply getBook_outcome in He
        as [_ [(? & _ & [=])|[[_ [=]]|[? [= ->]]]]]. done.
    + apply updateBook_outcome in He
        as [(_ & [=] & _)|[(? & _ & [=] & _)|[(? & [=] & _)
            |[(? & [= ->] & _)|(? & [=] & _)]]]]. done.
    + apply deleteBook_outcome in He
        as [(_ & [=] & _)|[(? & [= ->] & _)|(_ & [=] & _)]]. done.
  - intros event w name rest Hs.
    unfold getBook, getBook_try, updateBook, updateBook_try, deleteBook,
      deleteBook_try, listBook, fetchBookById, docClient_get, docClient_scan.
    promise. by rewrite !(call_failed _ _ name rest).
  - intros event w value name rest Hparse Hvalid Hs.
    unfold createBook, createBook_try, parse, v4. promise.
    rewrite Hparse, validate_accepts by done.
    unfold docClient_put. rewrite with_ISBN_ISBN.
    by rewrite (call_failed _ _ name rest).
  - intros event w r w' Hr.
    apply listBook_outcome in Hr as [_ [[? [=]]|[= ->]]]. done.
Qed.

(** C10. When create, update or delete answers 400 or 404, the table is
    as it was before the request. *)
Theorem error_response_leaves_table event w r w' :
  createBook event w = (Fulfilled r, w')
  ∨ updateBook event w = (Fulfilled r, w')
  ∨ deleteBook event w = (Fulfilled r, w') →
  res_statusCode r = 400 ∨ res_statusCode r = 404 →
  table w' = table w.
Proof.
  intros [Hr|[Hr|Hr]] Hstatus.
  - apply createBook_outcome in Hr
      as [(? & _ & _ & ->)|[(? & _ & ->)|[(? & _ & ->)|(? & [= ->] & _)]]];
      try done.
    simpl in Hstatus. lia.
  - apply updateBook_outcome in Hr
      as [(_ & _ & ->)|[(? & _ & _ & ->)|[(? & _ & ->)
          |[(? & _ & ->)|(? & [= ->] & _)]]]]; try done.
    simpl in Hstatus. lia.
  - apply deleteBook_outcome in Hr
      as [(_ & _ & ->)|[(? & _ & ->)|(_ & [= ->] & _)]]; try done.
    simpl in Hstatus. lia.
Qed.

End Properties.

(** * The properties on the sample runtime *)

(** C1 on the book stored under [uuid-0]: the ISBN the client sent is
    dropped and the pages of the old record are gone. *)
Lemma updateBook_replaces_record_sample :
  table Sample.one_book !! "uuid-0" = Some Sample.stored
  ∧ updateBook (RT := Sample.runtime) Sample.update_request Sample.one_book
    = (Fulfilled
         (Result 200 (Some headers)
            (Sample.stringify
               (JObj (with_ISBN (JObj Sample.payload_with_ISBN) "uuid-0")))),
       World (<[ "uuid-0" := with_ISBN (JObj Sample.payload_with_ISBN) "uuid-0" ]>
                (table Sample.one_book))
             [] Sample.uuids 1)
  ∧ with_ISBN (JObj Sample.payload_with_ISBN) "uuid-0" !! "ISBN"
    = Some (JStr "uuid-0").
Proof.
  split; [reflexivity|].
  destruct (updateBook_replaces_record (RT := Sample.runtime)
              Sample.update_request Sample.one_book Sample.stored
              (JObj Sample.payload_with_ISBN))
    as (Hrun & _ & HISBN & _); [reflexivity..|].
  split; [exact Hrun|exact HISBN].
Defined.

(** C2, as amended, on the empty table: the book is stored under the
    first identifier of the generator. *)
Lemma createBook_stores_record_sample :
  violated (RT := Sample.runtime) (JObj Sample.payload) = []
  ∧ createBook (RT := Sample.runtime) Sample.create_request Sample.empty_world
    = (Fulfilled
         (Result 201 (Some headers)
            (Sample.stringify (JObj (with_ISBN (JObj Sample.payload) "uuid-0")))),
       World (<[ "uuid-0" := with_ISBN (JObj Sample.payload) "uuid-0" ]> ∅)
             [] Sample.uuids 1).
Proof.
  split; [reflexivity|].
  destruct (createBook_stores_record (RT := Sample.runtime)
              Sample.create_request Sample.empty_world (JObj Sample.payload))
    as (Hrun & _); [reflexivity..|].
  exact Hrun.
Defined.

(** C2 as it is stated fails when the generator repeats itself: the
    payload is valid, create answers 201, and the ISBN of the record it
    answers with, [uuid-0], is the identifier of a book of the table. *)
Lemma createBook_reuses_identifier :
  Sample.parse_known (body Sample.create_request) = inr (JObj Sample.payload)
  ∧ violated (RT := Sample.runtime) (JObj Sample.payload) = []
  ∧ table Sample.colliding !! "uuid-0" = Some Sample.stored
  ∧ createBook (RT := Sample.runtime) Sample.create_request Sample.colliding
    = (Fulfilled
         (Result 201 (Some headers)
            (Sample.stringify (JObj (with_ISBN (JObj Sample.payload) "uuid-0")))),
       World (<[ "uuid-0" := with_ISBN (JObj Sample.payload) "uuid-0" ]>
                (table Sample.colliding))
             [] Sample.uuids 1)
  ∧ with_ISBN (JObj Sample.payload) "uuid-0" !! "ISBN" = Some (JStr "uuid-0").
Proof. repeat split; reflexivity. Qed.

(** C3 on an identifier that is not in use, with a body that would be
    refused had it been read. *)
Lemma updateBook_unknown_identifier_sample :
  table Sample.one_book !! "uuid-9" = None
  ∧ updateBook (RT := Sample.runtime) Sample.incomplete_unknown Sample.one_book
    = (Fulfilled (not_found (RT := Sample.runtime)), Sample.one_book).
Proof.
  split; [reflexivity|].
  apply (updateBook_unknown_identifier (RT := Sample.runtime)
           Sample.incomplete_unknown Sample.one_book); reflexivity.
Defined.

(** C4, as amended, on a payload with three violations. *)
Lemma invalid_payload_lists_every_violation_sample :
  violated (RT := Sample.runtime) (JObj Sample.payload_incomplete)
  = [ ("title", string_required); ("description", string_required);
      ("available", bool_required) ]
  ∧ createBook (RT := Sample.runtime) Sample.incomplete_request Sample.one_book
    = (Fulfilled
         (invalid (RT := Sample.runtime)
            (messages (RT := Sample.runtime) (JObj Sample.payload_incomplete))),
       Sample.one_book)
  ∧ updateBook (RT := Sample.runtime) Sample.incomplete_request Sample.one_book
    = (Fulfilled
         (invalid (RT := Sample.runtime)
            (messages (RT := Sample.runtime) (JObj Sample.payload_incomplete))),
       Sample.one_book)
  ∧ length (messages (RT := Sample.runtime) (JObj Sample.payload_incomplete))
    = 3%nat.
Proof.
  split; [reflexivity|].
  destruct (invalid_payload_lists_every_violation (RT := Sample.runtime)
              Sample.incomplete_request Sample.one_book
              (JObj Sample.payload_incomplete))
    as (Hcreate & Hupdate & Hlength & _); [reflexivity|discriminate|].
  split; [exact Hcreate|split; [|exact Hlength]].
  apply Hupdate; [reflexivity|]. exists Sample.stored. reflexivity.
Defined.

(** C4 as it is stated fails for update on an identifier that is not in
    use: the payload parses and violates the schema, and the answer is the
    404. *)
Lemma invalid_update_of_unknown_identifier :
  Sample.parse_known (body Sample.incomplete_unknown)
  = inr (JObj Sample.payload_incomplete)
  ∧ violated (RT := Sample.runtime) (JObj Sample.payload_incomplete) ≠ []
  ∧ table Sample.one_book !! id Sample.incomplete_unknown = None
  ∧ updateBook (RT := Sample.runtime) Sample.incomplete_unknown Sample.one_book
    = (Fulfilled (not_found (RT := Sample.runtime)), Sample.one_book)
  ∧ res_statusCode (not_found (RT := Sample.runtime)) = 404.
Proof. repeat split; (reflexivity || discriminate). Qed.

(** C5 on the book stored under [uuid-0]. *)
Lemma getBook_found_or_not_found_sample :
  service Sample.one_book = []
  ∧ getBook (RT := Sample.runtime) (Sample.request_for "uuid-0") Sample.one_book
    = (Fulfilled
         (Result 200 (Some headers) (Sample.stringify (JObj Sample.stored))),
       Sample.one_book)
  ∧ getBook (RT := Sample.runtime) (Sample.request_for "uuid-1") Sample.one_book
    = (Fulfilled (not_found (RT := Sample.runtime)), Sample.one_book).
Proof.
  split; [reflexivity|split].
  - destruct (getBook_found_or_not_found (RT := Sample.runtime)
                (Sample.request_for "uuid-0") Sample.one_book)
      as (Hfound & _); [reflexivity|].
    apply Hfound. reflexivity.
  - destruct (getBook_found_or_not_found (RT := Sample.runtime)
                (Sample.request_for "uuid-1") Sample.one_book)
      as (_ & Hmissing & _); [reflexivity|].
    apply Hmissing. reflexivity.
Defined.

(** C6 on the book stored under [uuid-0]. *)
Lemma deleteBook_removes_record_sample :
  table Sample.one_book !! "uuid-0" = Some Sample.stored
  ∧ deleteBook (RT := Sample.runtime) (Sample.request_for "uuid-0") Sample.one_book
    = (Fulfilled (Result 204 None "Record deleted successfully "),
       World (delete "uuid-0" (table Sample.one_book)) [] Sample.uuids 1)
  ∧ getBook (RT := Sample.runtime) (Sample.request_for "uuid-0")
      (World (delete "uuid-0" (table Sample.one_book)) [] Sample.uuids 1)
    = (Fulfilled (not_found (RT := Sample.runtime)),
       World (delete "uuid-0" (table Sample.one_book)) [] Sample.uuids 1).
Proof.
  split; [reflexivity|].
  destruct (deleteBook_removes_record (RT := Sample.runtime)
              (Sample.request_for "uuid-0") Sample.one_book Sample.stored)
    as (Hdelete & Hget & _); [reflexivity..|].
  split; [exact Hdelete|exact Hget].
Defined.

(** C7 on a generator that gives [uuid-0] again: the book stored there,
    which had pages, is replaced by one that has none. *)
Lemma createBook_overwrites_on_collision_sample :
  table Sample.colliding !! Sample.uuids 0 = Some Sample.stored
  ∧ Sample.stored !! "pages" = Some (JStr "320")
  ∧ with_ISBN (JObj Sample.payload) "uuid-0" !! "pages" = None
  ∧ ∃ w',
      createBook (RT := Sample.runtime) Sample.create_request Sample.colliding
      = (Fulfilled
           (Result 201 (Some headers)
              (Sample.stringify
                 (JObj (with_ISBN (JObj Sample.payload) "uuid-0")))),
         w')
      ∧ table w' !! "uuid-0" = Some (with_ISBN (JObj Sample.payload) "uuid-0").
Proof.
  split; [reflexivity|split; [reflexivity|split; [reflexivity|]]].
  destruct (createBook_overwrites_on_collision (RT := Sample.runtime)
              Sample.create_request Sample.colliding Sample.stored
              (JObj Sample.payload))
    as (w' & Hrun & Hstored & _); [reflexivity..|].
  exists w'. split; [exact Hrun|exact Hstored].
Defined.

(** C8 on a body cut short, sent to create and to the book stored. *)
Lemma malformed_body_is_refused_sample :
  Sample.parse_known (body Sample.truncated_request)
  = inl "Unexpected end of JSON input"
  ∧ createBook (RT := Sample.runtime) Sample.truncated_request Sample.one_book
    = (Fulfilled
         (malformed (RT := Sample.runtime) "Unexpected end of JSON input"),
       Sample.one_book)
  ∧ updateBook (RT := Sample.runtime) Sample.truncated_request Sample.one_book
    = (Fulfilled
         (malformed (RT := Sample.runtime) "Unexpected end of JSON input"),
       Sample.one_book).
Proof.
  split; [reflexivity|].
  destruct (malformed_body_is_refused (RT := Sample.runtime)
              Sample.truncated_request Sample.one_book
              "Unexpected end of JSON input")
    as (Hcreate & Hupdate & _); [reflexivity|].
  split; [exact Hcreate|].
  apply Hupdate; [reflexivity|]. exists Sample.stored. reflexivity.
Defined.

(** C10 on a delete that answers 404. *)
Lemma error_response_leaves_table_sample :
  deleteBook (RT := Sample.runtime) (Sample.request_for "uuid-9") Sample.one_book
  = (Fulfilled (not_found (RT := Sample.runtime)), Sample.one_book)
  ∧ table Sample.one_book = {[ "uuid-0" := Sample.stored ]}.
Proof.
  split; [reflexivity|].
  apply (error_response_leaves_table (RT := Sample.runtime)
           (Sample.request_for "uuid-9") Sample.one_book
           (not_found (RT := Sample.runtime)) Sample.one_book).
  - right; right. reflexivity.
  - right. reflexivity.
Defined.

(** A failure of the storage service ends list, and delete, as thrown. *)
Example storage_failure :
  listBook (RT := Sample.runtime) (Sample.request_for EmptyString) Sample.failing
  = (Thrown (OtherError "ServiceUnavailable"), Sample.one_book)
  ∧ deleteBook (RT := Sample.runtime) (Sample.request_for "uuid-0") Sample.failing
    = (Thrown (OtherError "ServiceUnavailable"), Sample.one_book).
Proof. split; reflexivity. Qed.

(** The example scenario of the specification: create, get, delete, get. *)
Example scenario :
  ∃ w1 w2 r,
    createBook (RT := Sample.runtime) Sample.create_request Sample.empty_world
    = (Fulfilled r, w1)
    ∧ res_statusCode r = 201
    ∧ getBook (RT := Sample.runtime) (Sample.request_for "uuid-0") w1
      = (Fulfilled (Result 200 (Some headers) (res_body r)), w1)
    ∧ deleteBook (RT := Sample.runtime) (Sample.request_for "uuid-0") w1
      = (Fulfilled (Result 204 None "Record deleted successfully "), w2)
    ∧ getBook (RT := Sample.runtime) (Sample.request_for "uuid-0") w2
      = (Fulfilled (not_found (RT := Sample.runtime)), w2)
    ∧ listBook (RT := Sample.runtime) (Sample.request_for EmptyString) w2
      = (Fulfilled (Result 200 (Some headers) "[]"), w2).
Proof. do 3 eexists. repeat split; vm_compute; reflexivity. Qed.

(** * How the handlers compose, and what they never do *)

Section Composition.
Context `{RT : Runtime}.

Implicit Types (event : APIGatewayProxyEvent) (w : world) (value : json).

(** *** The handlers when the service serves *)

Lemma validate_fulfilled value abortEarly w v w' :
  schema_validate value abortEarly w = (Fulfilled v, w') → violated value = [].
Proof.
  unfold schema_validate. destruct (violated value); [done|].
  promise. discriminate.
Qed.

Lemma createBook_served event w value :
  service w = [] → JSON_parse (body event) = inr value → violated value = [] →
  createBook event w
  = (Fulfilled (Result 201 (Some headers)
                  (JSON_stringify (JObj (with_ISBN value (rng w (drawn w)))))),
     World (<[ rng w (drawn w) := with_ISBN value (rng w (drawn w)) ]> (table w))
           [] (rng w) (S (drawn w))).
Proof.
  intros Hs Hparse Hvalid. unfold createBook, createBook_try, parse, v4. promise.
  rewrite Hparse, validate_accepts by done. by rewrite put_served.
Qed.

Lemma updateBook_served event w old value :
  service w = [] → table w !! id event = Some old →
  JSON_parse (body event) = inr value → violated value = [] →
  updateBook event w
  = (Fulfilled (Result 200 (Some headers)
                  (JSON_stringify (JObj (with_ISBN value (id event))))),
     World (<[ id event := with_ISBN value (id event) ]> (table w))
           [] (rng w) (drawn w)).
Proof.
  intros Hs Hold Hparse Hvalid. unfold updateBook, updateBook_try, parse. promise.
  rewrite (fetch_found _ _ old), Hparse, validate_accepts by done.
  by rewrite put_served.
Qed.

Lemma deleteBook_served event w old :
  service w = [] → table w !! id event = Some old →
  deleteBook event w
  = (Fulfilled (Result 204 None "Record deleted successfully "),
     World (delete (id event) (table w)) [] (rng w) (drawn w)).
Proof.
  intros Hs Hold. unfold deleteBook, deleteBook_try, docClient_delete. promise.
  rewrite (fetch_found _ _ old) by done. by rewrite call_served.
Qed.

Lemma getBook_served event w book :
  service w = [] → table w !! id event = Some book →
  getBook event w
  = (Fulfilled (Result 200 (Some headers) (JSON_stringify (JObj book))), w).
Proof.
  intros Hs Hid. unfold getBook, getBook_try. promise.
  by rewrite (fetch_found _ _ book).
Qed.

Lemma deleteBook_missing event w :
  service w = [] → table w !! id event = None →
  deleteBook event w = (Fulfilled not_found, w).
Proof.
  intros Hs Hid. unfold deleteBook, deleteBook_try. promise.
  by rewrite fetch_missing.
Qed.

(** *** What a handler may have written, however it ends *)

Lemma createBook_writes event w o w' :
  createBook event w = (o, w') →
  (table w' = table w ∧ ∀ r, o = Fulfilled r → res_statusCode r = 400)
  ∨ ∃ value,
      JSON_parse (body event) = inr value ∧ violated value = []
      ∧ o = Fulfilled (Result 201 (Some headers)
              (JSON_stringify (JObj (with_ISBN value (rng w (drawn w))))))
      ∧ table w'
        = <[ rng w (drawn w) := with_ISBN value (rng w (drawn w)) ]> (table w).
Proof.
  unfold createBook, createBook_try, parse, v4. promise.
  destruct (JSON_parse (body event)) as [msg|value] eqn:Hparse.
  { intros [= <- <-]. left. split; [done|]. by intros r [= <-]. }
  destruct (schema_validate value false w) as [o1 w1] eqn:Hv.
  pose proof Hv as Hv'.
  apply validate_outcome in Hv as [-> [->|[errors ->]]]; simpl.
  2: { intros [= <- <-]. left. split; [done|]. by intros r [= <-]. }
  apply validate_fulfilled in Hv'.
  destruct (docClient_put _ _) as [o2 w2] eqn:Hput.
  apply put_outcome in Hput as [(name & -> & Ht)|[-> Ht]]; simpl in *;
    intros [= <- <-]; [left|right].
  - split; [done|]. intros r. discriminate.
  - exists value. repeat split; done.
Qed.

Lemma updateBook_writes event w o w' :
  updateBook event w = (o, w') →
  (table w' = table w
   ∧ ∀ r, o = Fulfilled r → res_statusCode r = 400 ∨ res_statusCode r = 404)
  ∨ ∃ value old,
      table w !! id event = Some old
      ∧ JSON_parse (body event) = inr value ∧ violated value = []
      ∧ o = Fulfilled (Result 200 (Some headers)
              (JSON_stringify (JObj (with_ISBN value (id event)))))
      ∧ table w' = <[ id event := with_ISBN value (id event) ]> (table w).
Proof.
  unfold updateBook, updateBook_try, parse. promise.
  destruct (fetchBookById _ w) as [o1 w1] eqn:Hf.
  apply fetch_outcome in Hf as [Ht [(book & -> & Hid)|[[-> Hid]|[name ->]]]];
    simpl.
  2: { intros [= <- <-]. left. split; [done|]. intros r [= <-]. by right. }
  2: { intros [= <- <-]. left. split; [done|]. intros r. discriminate. }
  destruct (JSON_parse (body event)) as [msg|value] eqn:Hparse.
  { intros [= <- <-]. left. split; [done|]. intros r [= <-]. by left. }
  destruct (schema_validate value false w1) as [o2 w2] eqn:Hv.
  pose proof Hv as Hv'.
  apply validate_outcome in Hv as [-> [->|[errors ->]]]; simpl.
  2: { intros [= <- <-]. left. split; [done|]. intros r [= <-]. by left. }
  apply validate_fulfilled in Hv'.
  destruct (docClient_put _ _) as [o3 w3] eqn:Hput.
  apply put_outcome in Hput as [(name & -> & Hp)|[-> Hp]]; simpl in *;
    intros [= <- <-]; [left|right].
  - split; [congruence|]. intros r. discriminate.
  - exists value, book. rewrite Hp, Ht. repeat split; done.
Qed.

Lemma deleteBook_writes event w o w' :
  deleteBook event w = (o, w') →
  (table w' = table w ∧ ∀ r, o = Fulfilled r → res_statusCode r = 404)
  ∨ (is_Some (table w !! id event)
     ∧ o = Fulfilled (Result 204 None "Record deleted successfully ")
     ∧ table w' = delete (id event) (table w)).
Proof.
  intros Hd. apply deleteBook_outcome in Hd
    as [(_ & -> & Ht)|[(name & -> & Ht)|(Hid & -> & Ht)]].
  - left. split; [done|]. by intros r [= <-].
  - left. split; [done|]. intros r. discriminate.
  - right. done.
Qed.

(** *** List *)

(** X1. When the service serves the scan, list answers 200 with the JSON
    array of the records of the table, as many as the table has and no
    other, whatever the event is, and leaves the world as it was. *)
Theorem listBook_lists_every_record event w :
  service w = [] →
  ∃ Items,
    listBook event w
    = (Fulfilled (Result 200 (Some headers)
                    (JSON_stringify (JArr (JObj <$> Items)))), w)
    ∧ length Items = size (table w)
    ∧ ∀ item, item ∈ Items ↔ ∃ key, table w !! key = Some item.
Proof.
  intros Hs. exists ((map_to_list (table w)).*2). split; [|split].
  - unfold listBook, docClient_scan. promise.
    rewrite call_served by done. simpl. by rewrite world_eta.
  - by rewrite length_fmap, length_map_to_list.
  - intros item. rewrite list_elem_of_fmap. split.
    + intros [[key item'] [-> Hin]]. exists key. by apply elem_of_map_to_list.
    + intros [key Hkey]. exists (key, item). split; [done|].
      by apply elem_of_map_to_list.
Qed.

(** *** Status codes *)

(** X2. The status codes each handler can answer with: 201 or 400 for
    create, 200 or 404 for get, 200, 400 or 404 for update, 204 or 404 for
    delete, and 200 alone for list. *)
Theorem status_codes event w r w' :
  (createBook event w = (Fulfilled r, w') →
   res_statusCode r = 201 ∨ res_statusCode r = 400)
  ∧ (getBook event w = (Fulfilled r, w') →
     res_statusCode r = 200 ∨ res_statusCode r = 404)
  ∧ (updateBook event w = (Fulfilled r, w') →
     res_statusCode r = 200 ∨ res_statusCode r = 400 ∨ res_statusCode r = 404)
  ∧ (deleteBook event w = (Fulfilled r, w') →
     res_statusCode r = 204 ∨ res_statusCode r = 404)
  ∧ (listBook event w = (Fulfilled r, w') → res_statusCode r = 200).
Proof.
  split; [|split; [|split; [|split]]]; intros Hr.
  - apply createBook_writes in Hr as [[_ H400]|(? & _ & _ & [= ->] & _)].
    + right. by apply H400.
    + by left.
  - apply getBook_outcome in Hr
      as [_ [(? & _ & [= ->])|[[_ [= ->]]|[? [=]]]]]; [by left|by right].
  - apply updateBook_writes in Hr as [[_ Herr]|(? & ? & _ & _ & _ & [= ->] & _)].
    + right. by apply Herr.
    + by left.
  - apply deleteBook_writes in Hr as [[_ H404]|(_ & [= ->] & _)].
    + right. by apply H404.
    + by left.
  - apply listBook_outcome in Hr as [_ [[? [=]]|[= ->]]]. done.
Qed.

(** *** What is never written *)

(** X3. When create, update or delete ends with something thrown, a
    failure of the storage service, the table is as it was before the
    request. *)
Theorem failed_request_leaves_table event w e w' :
  createBook event w = (Thrown e, w')
  ∨ updateBook event w = (Thrown e, w')
  ∨ deleteBook event w = (Thrown e, w') →
  table w' = table w.
Proof.
  intros [He|[He|He]].
  - by apply createBook_writes in He as [[Ht _]|(? & _ & _ & [=] & _)].
  - by apply updateBook_writes in He as [[Ht _]|(? & ? & _ & _ & _ & [=] & _)].
  - by apply deleteBook_writes in He as [[Ht _]|(_ & [=] & _)].
Qed.

(** X4. Get and list never write: however they end, the table is as it
    was. *)
Theorem reads_leave_table event w o w' :
  getBook event w = (o, w') ∨ listBook event w = (o, w') →
  table w' = table w.
Proof.
  intros [Ho|Ho].
  - by apply getBook_outcome in Ho as [Ht _].
  - by apply listBook_outcome in Ho as [Ht _].
Qed.

(** X5. Create answers 201, and update 200, only on a body that parsed to
    a payload violating nothing; update answers 200, and delete 204, only
    on an identifier the table had. *)
Theorem success_requires_valid_request event w r w' :
  (createBook event w = (Fulfilled r, w') → res_statusCode r = 201 →
   ∃ value, JSON_parse (body event) = inr value ∧ violated value = [])
  ∧ (updateBook event w = (Fulfilled r, w') → res_statusCode r = 200 →
     is_Some (table w !! id event)
     ∧ ∃ value, JSON_parse (body event) = inr value ∧ violated value = [])
  ∧ (deleteBook event w = (Fulfilled r, w') → res_statusCode r = 204 →
     is_Some (table w !! id event)).
Proof.
  split; [|split]; intros Hr Hstatus.
  - apply createBook_writes in Hr as [[_ H400]|(value & ? & ? & _)]; [|eauto].
    rewrite (H400 r) in Hstatus; done.
  - apply updateBook_writes in Hr as [[_ Herr]|(value & ? & ? & ? & ? & _)];
      [|eauto].
    destruct (Herr r) as [Hs|Hs]; [done|rewrite Hs in Hstatus..]; done.
  - apply deleteBook_writes in Hr as [[_ H404]|(? & _)]; [|done].
    rewrite (H404 r) in Hstatus; done.
Qed.

(** X6. A request touches no record but its own: however update or delete
    ends, the record under any identifier other than the one of the path
    is as it was, and so it is with create for any identifier other than
    the one the generator gives. *)
Theorem writes_touch_one_record event w o w' key :
  (createBook event w = (o, w') → key ≠ rng w (drawn w) →
   table w' !! key = table w !! key)
  ∧ (updateBook event w = (o, w') ∨ deleteBook event w = (o, w') →
     key ≠ id event → table w' !! key = table w !! key).
Proof.
  split.
  - intros Ho Hkey.
    apply createBook_writes in Ho as [[-> _]|(? & _ & _ & _ & ->)]; [done|].
    by rewrite lookup_insert_ne.
  - intros [Ho|Ho] Hkey.
    + apply updateBook_writes in Ho as [[-> _]|(? & ? & _ & _ & _ & _ & ->)];
        [done|].
      by rewrite lookup_insert_ne.
    + apply deleteBook_writes in Ho as [[-> _]|(_ & _ & ->)]; [done|].
      by rewrite lookup_delete_ne.
Qed.

(** X7. Update neither adds nor removes a record: however it ends, the
    identifiers of the table are those it had. *)
Theorem update_keeps_identifiers event w o w' :
  updateBook event w = (o, w') → dom (table w') = dom (table w).
Proof.
  intros Ho.
  apply updateBook_writes in Ho as [[-> _]|(? & old & Hold & _ & _ & _ & ->)];
    [done|].
  by apply dom_insert_lookup_L.
Qed.


(** *** One request after another *)

(** X9. A book that create has stored can be read: when create has
    answered 201, get on the identifier it gave answers 200 with the same
    body, whatever the body of the get request. *)
Theorem created_book_can_be_read event w value text :
  service w = [] →
  JSON_parse (body event) = inr value →
  violated value = [] →
  ∃ r w',
    createBook event w = (Fulfilled r, w')
    ∧ res_statusCode r = 201
    ∧ getBook (Event text (rng w (drawn w))) w'
      = (Fulfilled (Result 200 (Some headers) (res_body r)), w').
Proof.
  intros Hs Hparse Hvalid. do 2 eexists. split; [|split].
  - by apply createBook_served.
  - done.
  - apply getBook_served; [done|]. apply lookup_insert_eq.
Qed.

(** X10. After an update that answered 200, get on the same identifier
    answers 200 with the body the update answered with. *)
Theorem updated_book_can_be_read event w old value :
  service w = [] →
  table w !! id event = Some old →
  JSON_parse (body event) = inr value →
  violated value = [] →
  ∃ r w',
    updateBook event w = (Fulfilled r, w')
    ∧ res_statusCode r = 200
    ∧ getBook event w'
      = (Fulfilled (Result 200 (Some headers) (res_body r)), w').
Proof.
  intros Hs Hold Hparse Hvalid. do 2 eexists. split; [|split].
  - by apply (updateBook_served _ _ old).
  - done.
  - apply getBook_served; [done|]. apply lookup_insert_eq.
Qed.

(** X11. Delete on an identifier the table does not have answers 404 with
    the [not found] object and leaves the world as it was. *)
Theorem deleteBook_unknown_identifier event w :
  service w = [] →
  table w !! id event = None →
  deleteBook event w = (Fulfilled not_found, w).
Proof. apply deleteBook_missing. Qed.

(** X12. Delete is not idempotent: after a delete that answered 204, the
    same delete answers 404. *)
Theorem second_delete_is_not_found event w old :
  service w = [] →
  table w !! id event = Some old →
  ∃ w',
    deleteBook event w
    = (Fulfilled (Result 204 None "Record deleted successfully "), w')
    ∧ deleteBook event w' = (Fulfilled not_found, w').
Proof.
  intros Hs Hold. eexists. split.
  - by apply (deleteBook_served _ _ old).
  - apply deleteBook_missing; [done|]. apply lookup_delete_eq.
Qed.

(** X13. Update and delete make two storage calls.  When the service
    serves the first, finding the record, and fails the second, the
    failure is thrown as it is, both answers of the service are used up,
    and the table is as it was. *)
Theorem failed_second_call_leaves_table event w old name rest :
  service w = None :: Some name :: rest →
  table w !! id event = Some old →
  deleteBook event w
  = (Thrown (OtherError name), World (table w) rest (rng w) (drawn w))
  ∧ ∀ value,
      JSON_parse (body event) = inr value → violated value = [] →
      updateBook event w
      = (Thrown (OtherError name), World (table w) rest (rng w) (drawn w)).
Proof.
  intros Hs Hold.
  assert (fetchBookById (id event) w
          = (Fulfilled old,
             World (table w) (Some name :: rest) (rng w) (drawn w))) as Hfetch.
  { unfold fetchBookById, docClient_get, call. promise. rewrite Hs. simpl.
    by rewrite Hold. }
  split.
  - unfold deleteBook, deleteBook_try, docClient_delete. promise.
    rewrite Hfetch. by rewrite (call_failed _ _ name rest).
  - intros value Hparse Hvalid.
    unfold updateBook, updateBook_try, parse. promise.
    rewrite Hfetch, Hparse, validate_accepts by done.
    unfold docClient_put. rewrite with_ISBN_ISBN.
    by rewrite (call_failed _ _ name rest).
Qed.

(** X14. A create that is given an identifier the table does not have
    adds one record to it. *)
Theorem create_adds_one_record event w value :
  service w = [] →
  JSON_parse (body event) = inr value →
  violated value = [] →
  table w !! rng w (drawn w) = None →
  ∃ r w',
    createBook event w = (Fulfilled r, w')
    ∧ res_statusCode r = 201
    ∧ size (table w') = S (size (table w)).
Proof.
  intros Hs Hparse Hvalid Hfresh. do 2 eexists. split; [|split].
  - by apply createBook_served.
  - done.
  - by apply map_size_insert_None.
Qed.

(** X15. A delete that answers 204 has removed one record: the table has
    one record less. *)
Theorem delete_removes_one_record event w r w' :
  deleteBook event w = (Fulfilled r, w') →
  res_statusCode r = 204 →
  S (size (table w')) = size (table w).
Proof.
  intros Hr Hstatus.
  apply deleteBook_writes in Hr as [[_ H404]|([old Hold] & _ & ->)].
  - rewrite (H404 r) in Hstatus; done.
  - rewrite map_size_delete_Some by eauto.
    assert (size (table w) ≠ 0%nat) as Hsize
      by (apply (map_size_ne_0_lookup_2 _ (id event)); eauto).
    destruct (size (table w)); done.
Qed.

(** X16. Update is idempotent: the same update sent again answers the same
    200 and changes nothing. *)
Theorem update_is_idempotent event w old value :
  service w = [] →
  table w !! id event = Some old →
  JSON_parse (body event) = inr value →
  violated value = [] →
  ∃ r w',
    updateBook event w = (Fulfilled r, w')
    ∧ res_statusCode r = 200
    ∧ updateBook event w' = (Fulfilled r, w').
Proof.
  intros Hs Hold Hparse Hvalid. do 2 eexists. split; [|split].
  - by apply (updateBook_served _ _ old).
  - done.
  - rewrite (updateBook_served _ _ (with_ISBN value (id event)) value);
      [|done|apply lookup_insert_eq|done|done].
    simpl. by rewrite insert_insert_eq.
Qed.

(** X17. Deleting the book a create has just stored under an identifier
    the table did not have gives back the table there was before. *)
Theorem create_then_delete_restores_table event w value text :
  service w = [] →
  JSON_parse (body event) = inr value →
  violated value = [] →
  table w !! rng w (drawn w) = None →
  ∃ r w1 w2,
    createBook event w = (Fulfilled r, w1)
    ∧ deleteBook (Event text (rng w (drawn w))) w1
      = (Fulfilled (Result 204 None "Record deleted successfully "), w2)
    ∧ table w2 = table w.
Proof.
  intros Hs Hparse Hvalid Hfresh. do 3 eexists. split; [|split].
  - by apply createBook_served.
  - apply (deleteBook_served _ _ (with_ISBN value (rng w (drawn w)))); [done|].
    apply lookup_insert_eq.
  - simpl. by rewrite delete_insert_eq, delete_id.
Qed.

End Composition.

(** * The compositions on the sample runtime *)

(** X1 on the table of one book. *)
Lemma listBook_lists_every_record_sample :
  service Sample.one_book = []
  ∧ ∃ Items,
      listBook (RT := Sample.runtime) (Sample.request_for EmptyString)
        Sample.one_book
      = (Fulfilled (Result 200 (Some headers)
                      (Sample.stringify (JArr (JObj <$> Items)))),
         Sample.one_book)
      ∧ length Items = 1%nat.
Proof.
  split; [reflexivity|].
  destruct (listBook_lists_every_record (RT := Sample.runtime)
              (Sample.request_for EmptyString) Sample.one_book)
    as (Items & Hrun & Hlength & _); [reflexivity|].
  exists Items. split; [exact Hrun|]. rewrite Hlength. reflexivity.
Defined.

(** X3 on a delete the service fails. *)
Lemma failed_request_leaves_table_sample :
  deleteBook (RT := Sample.runtime) (Sample.request_for "uuid-0") Sample.failing
  = (Thrown (OtherError "ServiceUnavailable"), Sample.one_book)
  ∧ table Sample.one_book = table Sample.failing.
Proof.
  split; [reflexivity|].
  apply (failed_request_leaves_table (RT := Sample.runtime)
           (Sample.request_for "uuid-0") Sample.failing
           (OtherError "ServiceUnavailable") Sample.one_book).
  right; right. reflexivity.
Defined.

(** X4 on a list the service fails. *)
Lemma reads_leave_table_sample :
  listBook (RT := Sample.runtime) (Sample.request_for EmptyString) Sample.failing
  = (Thrown (OtherError "ServiceUnavailable"), Sample.one_book)
  ∧ table Sample.one_book = table Sample.failing.
Proof.
  split; [reflexivity|].
  apply (reads_leave_table (RT := Sample.runtime)
           (Sample.request_for EmptyString) Sample.failing
           (Thrown (OtherError "ServiceUnavailable")) Sample.one_book).
  right. reflexivity.
Defined.

(** X7 on the update of the book stored. *)
Lemma update_keeps_identifiers_sample :
  dom (<[ "uuid-0" := with_ISBN (JObj Sample.payload_with_ISBN) "uuid-0" ]>
         (table Sample.one_book))
  = dom (table Sample.one_book).
Proof.
  refine (update_keeps_identifiers (RT := Sample.runtime)
           Sample.update_request Sample.one_book
           (Fulfilled
              (Result 200 (Some headers)
                 (Sample.stringify
                    (JObj (with_ISBN (JObj Sample.payload_with_ISBN) "uuid-0")))))
           (World (<[ "uuid-0" :=
                      with_ISBN (JObj Sample.payload_with_ISBN) "uuid-0" ]>
                     (table Sample.one_book))
                  [] Sample.uuids 1) _).
  reflexivity.
Defined.


(** X9 on a create in the empty table. *)
Lemma created_book_can_be_read_sample :
  violated (RT := Sample.runtime) (JObj Sample.payload) = []
  ∧ ∃ r w',
      createBook (RT := Sample.runtime) Sample.create_request Sample.empty_world
      = (Fulfilled r, w')
      ∧ res_statusCode r = 201
      ∧ getBook (RT := Sample.runtime) (Event EmptyString "uuid-0") w'
        = (Fulfilled (Result 200 (Some headers) (res_body r)), w').
Proof.
  split; [reflexivity|].
  apply (created_book_can_be_read (RT := Sample.runtime)
           Sample.create_request Sample.empty_world (JObj Sample.payload)
           EmptyString); reflexivity.
Defined.

(** X10 on the update of the book stored. *)
Lemma updated_book_can_be_read_sample :
  table Sample.one_book !! "uuid-0" = Some Sample.stored
  ∧ ∃ r w',
      updateBook (RT := Sample.runtime) Sample.update_request Sample.one_book
      = (Fulfilled r, w')
      ∧ res_statusCode r = 200
      ∧ getBook (RT := Sample.runtime) Sample.update_request w'
        = (Fulfilled (Result 200 (Some headers) (res_body r)), w').
Proof.
  split; [reflexivity|].
  apply (updated_book_can_be_read (RT := Sample.runtime)
           Sample.update_request Sample.one_book Sample.stored
           (JObj Sample.payload_with_ISBN)); reflexivity.
Defined.

(** X11 on an identifier that is not in use. *)
Lemma deleteBook_unknown_identifier_sample :
  table Sample.one_book !! "uuid-9" = None
  ∧ deleteBook (RT := Sample.runtime) (Sample.request_for "uuid-9")
      Sample.one_book
    = (Fulfilled (not_found (RT := Sample.runtime)), Sample.one_book).
Proof.
  split; [reflexivity|].
  apply (deleteBook_unknown_identifier (RT := Sample.runtime)
           (Sample.request_for "uuid-9") Sample.one_book); reflexivity.
Defined.

(** X12 on the book stored. *)
Lemma second_delete_is_not_found_sample :
  table Sample.one_book !! "uuid-0" = Some Sample.stored
  ∧ ∃ w',
      deleteBook (RT := Sample.runtime) (Sample.request_for "uuid-0")
        Sample.one_book
      = (Fulfilled (Result 204 None "Record deleted successfully "), w')
      ∧ deleteBook (RT := Sample.runtime) (Sample.request_for "uuid-0") w'
        = (Fulfilled (not_found (RT := Sample.runtime)), w').
Proof.
  split; [reflexivity|].
  apply (second_delete_is_not_found (RT := Sample.runtime)
           (Sample.request_for "uuid-0") Sample.one_book Sample.stored);
    reflexivity.
Defined.

(** X13 on a service that serves the get and fails the write. *)
Lemma failed_second_call_leaves_table_sample :
  service Sample.failing_second = [None; Some "ServiceUnavailable"]
  ∧ deleteBook (RT := Sample.runtime) Sample.update_request Sample.failing_second
    = (Thrown (OtherError "ServiceUnavailable"), Sample.one_book)
  ∧ updateBook (RT := Sample.runtime) Sample.update_request Sample.failing_second
    = (Thrown (OtherError "ServiceUnavailable"), Sample.one_book).
Proof.
  split; [reflexivity|].
  destruct (failed_second_call_leaves_table (RT := Sample.runtime)
              Sample.update_request Sample.failing_second Sample.stored
              "ServiceUnavailable" [])
    as (Hdelete & Hupdate); [reflexivity..|].
  split; [exact Hdelete|].
  apply (Hupdate (JObj Sample.payload_with_ISBN)); reflexivity.
Defined.

(** X14 on a create in the table of one book. *)
Lemma create_adds_one_record_sample :
  table Sample.one_book !! Sample.uuids 1 = None
  ∧ ∃ r w',
      createBook (RT := Sample.runtime) Sample.create_request Sample.one_book
      = (Fulfilled r, w')
      ∧ res_statusCode r = 201
      ∧ size (table w') = S (size (table Sample.one_book)).
Proof.
  split; [reflexivity|].
  apply (create_adds_one_record (RT := Sample.runtime)
           Sample.create_request Sample.one_book (JObj Sample.payload));
    reflexivity.
Defined.

(** X15 on the delete of the book stored. *)
Lemma delete_removes_one_record_sample :
  S (size (delete "uuid-0" (table Sample.one_book)))
  = size (table Sample.one_book).
Proof.
  refine (delete_removes_one_record (RT := Sample.runtime)
            (Sample.request_for "uuid-0") Sample.one_book
            (Result 204 None "Record deleted successfully ")
            (World (delete "uuid-0" (table Sample.one_book)) [] Sample.uuids 1)
            _ _); reflexivity.
Defined.

(** X16 on the update of the book stored. *)
Lemma update_is_idempotent_sample :
  table Sample.one_book !! "uuid-0" = Some Sample.stored
  ∧ ∃ r w',
      updateBook (RT := Sample.runtime) Sample.update_request Sample.one_book
      = (Fulfilled r, w')
      ∧ res_statusCode r = 200
      ∧ updateBook (RT := Sample.runtime) Sample.update_request w'
        = (Fulfilled r, w').
Proof.
  split; [reflexivity|].
  apply (update_is_idempotent (RT := Sample.runtime)
           Sample.update_request Sample.one_book Sample.stored
           (JObj Sample.payload_with_ISBN)); reflexivity.
Defined.

(** X17 on a create in the table of one book. *)
Lemma create_then_delete_restores_table_sample :
  table Sample.one_book !! Sample.uuids 1 = None
  ∧ ∃ r w1 w2,
      createBook (RT := Sample.runtime) Sample.create_request Sample.one_book
      = (Fulfilled r, w1)
      ∧ deleteBook (RT := Sample.runtime) (Event EmptyString "uuid-1") w1
        = (Fulfilled (Result 204 None "Record deleted successfully "), w2)
      ∧ table w2 = table Sample.one_book.
Proof.
  split; [reflexivity|].
  apply (create_then_delete_restores_table (RT := Sample.runtime)
           Sample.create_request Sample.one_book (JObj Sample.payload)
           EmptyString); reflexivity.
Defined.
